(** * Sign-out confirmation gate: ConfirmationModal and AuthButton

    A shallow embedding of
      - [ConfirmationModal] (components/ui/confirmation-modal, the second
        document of src/skills/openai-agents-typescript.md), and
      - [AuthButton] (src/components/auth/AuthButton.tsx),
    together with the properties of the confirmation lifecycle.

    A React function component is a function from its props (and the
    values of its state hooks) to an element tree.  The tree is kept as
    plain data; event handlers are kept as values of a callback type, so
    that "which handler is wired to which control" is an equation between
    data.  Handler bodies are written in a small state-and-exception monad
    whose log records every call in program order. *)

From Stdlib Require Import String List Bool Arith Lia.
Import ListNotations.
Open Scope string_scope.
Open Scope list_scope.

(** An element that can receive a click.  [onClick] and [disabled] are the
    props of the same name as written in the JSX ([None] / [false] where the
    source passes none); [text] is the element's textual child. *)
Record Element (cb : Type) : Type := mkElement {
  onClick   : option cb;
  disabled  : bool;
  className : string;
  text      : string
}.
Arguments mkElement {cb}.
Arguments onClick {cb}.
Arguments disabled {cb}.
Arguments className {cb}.
Arguments text {cb}.

(** Modelled from the spec: the [Button] component (components/ui/button) and
    the browser's click dispatch are not part of src/.  The spec's contract
    for them is that a disabled control produces no callback invocation when
    activated, and that an enabled one invokes its click handler once.
    [activate e] is the list of handlers a click on [e] invokes. *)
Definition activate {cb : Type} (e : Element cb) : list cb :=
  if disabled e then []
  else match onClick e with
       | Some f => [f]
       | None => []
       end.

(** JavaScript default parameter: [x = d] in a destructuring pattern. *)
Definition or_default {A : Type} (x : option A) (d : A) : A :=
  match x with
  | Some a => a
  | None => d
  end.

(** [c && "classes"] as an argument of [cn]: the string when [c] holds,
    [false] (dropped by [cn]) otherwise. *)
Definition and_class (c : bool) (s : string) : option string :=
  if c then Some s else None.

(* ================================================================== *)
(** ** ConfirmationModal *)
(* ================================================================== *)

Module ConfirmationModal.

(** [variant?: 'danger' | 'warning' | 'info'] *)
Inductive Variant : Type := danger | warning | info.

Definition Variant_eqb (a b : Variant) : bool :=
  match a, b with
  | danger, danger | warning, warning | info, info => true
  | _, _ => false
  end.

(** The four places of the dialog that carry a click handler. *)
Inductive Control : Type :=
| Backdrop
| CloseButton
| CancelButton
| ConfirmButton.

Section Gate.

(** The type of the two callbacks, [() => void]. *)
Variable cb : Type.

(** [cn] from lib/utils (not in src/): combines class names, dropping the
    falsy ones.  Only styling depends on it. *)
Variable cn : list (option string) -> string.

(** interface ConfirmationModalProps *)
Record ConfirmationModalProps : Type := mkProps {
  isOpen       : bool;
  onClose      : cb;
  onConfirm    : cb;
  title        : option string;
  description  : option string;
  confirmLabel : option string;
  cancelLabel  : option string;
  variant      : option Variant;
  isLoading    : option bool
}.

(** What is on screen when the gate is open. *)
Record Dialog : Type := mkDialog {
  backdrop      : Element cb;
  closeButton   : Element cb;
  icon          : string;        (* className of the icon wrapper *)
  heading       : string;        (* <h3>{title}</h3> *)
  paragraph     : string;        (* <p>{description}</p> *)
  cancelButton  : Element cb;
  confirmButton : Element cb
}.

(** The returned JSX: [{isOpen && ( ... )}]. *)
Definition ConfirmationModal (p : ConfirmationModalProps) : option Dialog :=
  let title := or_default (title p) "Are you sure?" in
  let description :=
    or_default (description p)
      "This action make your sessions end, and use a new login token." in
  let confirmLabel := or_default (confirmLabel p) "Confirm" in
  let cancelLabel := or_default (cancelLabel p) "Cancel" in
  let variant := or_default (variant p) danger in
  let isLoading := or_default (isLoading p) false in
  if isOpen p then
    Some {|
      backdrop :=
        {| onClick := Some (onClose p);
           disabled := false;
           className := "absolute inset-0 bg-black/60 backdrop-blur-sm";
           text := "" |};
      closeButton :=
        {| onClick := Some (onClose p);
           disabled := false;
           className := "absolute right-4 top-4 p-2 rounded-full text-muted-foreground hover:bg-accent hover:text-foreground transition-colors";
           text := "" |};
      icon :=
        cn [ Some "mb-4 sm:mb-6 flex h-16 w-16 sm:h-12 sm:w-12 items-center justify-center rounded-2xl sm:rounded-xl";
             and_class (Variant_eqb variant danger) "bg-destructive/10 text-destructive";
             and_class (Variant_eqb variant warning) "bg-orange-500/10 text-orange-500";
             and_class (Variant_eqb variant info) "bg-primary/10 text-primary" ];
      heading := title;
      paragraph := description;
      cancelButton :=
        {| onClick := Some (onClose p);
           disabled := isLoading;
           className := "w-full sm:w-auto rounded-xl border-border/50";
           text := cancelLabel |};
      confirmButton :=
        {| onClick := Some (onConfirm p);
           disabled := isLoading;
           className :=
             cn [ Some "w-full sm:w-auto rounded-xl shadow-lg";
                  and_class (Variant_eqb variant danger) "bg-destructive hover:bg-destructive/90 shadow-destructive/20";
                  and_class (Variant_eqb variant warning) "bg-orange-600 hover:bg-orange-700 shadow-orange-500/20";
                  and_class (Variant_eqb variant info) "bg-primary hover:bg-primary/90 shadow-primary/20" ];
           text := if isLoading then "Processing..." else confirmLabel |}
    |}
  else None.

Definition control (d : Dialog) (c : Control) : Element cb :=
  match c with
  | Backdrop => backdrop d
  | CloseButton => closeButton d
  | CancelButton => cancelButton d
  | ConfirmButton => confirmButton d
  end.

(** The handlers invoked when the user activates control [c] of what the
    gate rendered; nothing is rendered, hence nothing invoked, when the gate
    is closed. *)
Definition click (view : option Dialog) (c : Control) : list cb :=
  match view with
  | Some d => activate (control d c)
  | None => []
  end.

(** The same props with another severity. *)
Definition with_variant (v : option Variant) (p : ConfirmationModalProps)
  : ConfirmationModalProps :=
  {| isOpen := isOpen p; onClose := onClose p; onConfirm := onConfirm p;
     title := title p; description := description p;
     confirmLabel := confirmLabel p; cancelLabel := cancelLabel p;
     variant := v; isLoading := isLoading p |}.

(** Everything of an element but its styling. *)
Definition unstyled_element (e : Element cb) : Element cb :=
  {| onClick := onClick e; disabled := disabled e;
     className := ""; text := text e |}.

(** Everything of a dialog but its styling: wiring, disabled flags, texts. *)
Definition unstyled (d : Dialog) : Dialog :=
  {| backdrop := unstyled_element (backdrop d);
     closeButton := unstyled_element (closeButton d);
     icon := "";
     heading := heading d;
     paragraph := paragraph d;
     cancelButton := unstyled_element (cancelButton d);
     confirmButton := unstyled_element (confirmButton d) |}.

End Gate.

Arguments mkProps {cb}.
Arguments isOpen {cb}.
Arguments onClose {cb}.
Arguments onConfirm {cb}.
Arguments title {cb}.
Arguments description {cb}.
Arguments confirmLabel {cb}.
Arguments cancelLabel {cb}.
Arguments variant {cb}.
Arguments isLoading {cb}.
Arguments backdrop {cb}.
Arguments closeButton {cb}.
Arguments icon {cb}.
Arguments heading {cb}.
Arguments paragraph {cb}.
Arguments cancelButton {cb}.
Arguments confirmButton {cb}.
Arguments ConfirmationModal {cb}.
Arguments control {cb}.
Arguments click {cb}.
Arguments with_variant {cb}.
Arguments unstyled {cb}.
Arguments unstyled_element {cb}.

(** *** The scroll lock: [useEffect(() => {...}, [isOpen])] *)

(** [document.body.style.overflow], with the history of the assignments
    made to it (oldest first). *)
Record Document : Type := mkDocument {
  overflow    : string;
  assignments : list string
}.

(** [document.body.style.overflow = v] *)
Definition set_overflow (v : string) (d : Document) : Document :=
  {| overflow := v; assignments := assignments d ++ [v] |}.

(** The body of the effect. *)
Definition scroll_effect (isOpen : bool) (d : Document) : Document :=
  if isOpen then set_overflow "hidden" d
  else set_overflow "unset" d.

(** The function the effect returns: [() => { ... = 'unset'; }]. *)
Definition scroll_cleanup (d : Document) : Document :=
  set_overflow "unset" d.

(** The gate's presence in the tree: [None] when it is not mounted,
    [Some b] when it is mounted and was last rendered with [isOpen = b]. *)
Definition Presence : Type := option bool.

Definition is_open (g : Presence) : bool :=
  match g with
  | Some true => true
  | _ => false
  end.

(** React's schedule for an effect with dependency list [[isOpen]], from one
    committed tree ([g]) to the next ([next]): the effect runs after the
    mount; after a re-render that changed [isOpen] the previous clean-up
    runs and then the effect; the clean-up runs on unmount. *)
Definition commit (g next : Presence) (d : Document) : Document :=
  match g, next with
  | None, None => d
  | None, Some b => scroll_effect b d
  | Some a, Some b =>
      if Bool.eqb a b then d
      else scroll_effect b (scroll_cleanup d)
  | Some _, None => scroll_cleanup d
  end.

(** A lifecycle: the successive presences of one gate. *)
Fixpoint lifecycle (g : Presence) (d : Document) (nexts : list Presence)
  : Presence * Document :=
  match nexts with
  | [] => (g, d)
  | next :: rest => lifecycle next (commit g next d) rest
  end.

(** The assignments one transition performs, in order. *)
Definition performed (g next : Presence) : list string :=
  assignments (commit g next {| overflow := ""; assignments := [] |}).

Definition activations (ws : list string) : nat :=
  length (filter (String.eqb "hidden") ws).

Definition releases (ws : list string) : nat :=
  length (filter (String.eqb "unset") ws).

(** Entering and leaving the open state, as a transition of the presence. *)
Definition enters_open (g next : Presence) : bool :=
  negb (is_open g) && is_open next.

Definition leaves_open (g next : Presence) : bool :=
  is_open g && negb (is_open next).

(** The [disabled] flag of control [c] as rendered, if it is rendered. *)
Definition rendered_disabled {cb : Type} (view : option (Dialog cb))
    (c : Control) : option bool :=
  option_map (fun d => disabled (control d c)) view.

End ConfirmationModal.

(* ================================================================== *)
(** ** AuthButton *)
(* ================================================================== *)

Module AuthButton.

Import ConfirmationModal.

(** The four handlers the component passes to its children. *)
Inductive Callback : Type :=
| cb_handleSignOutClick   (* onClick={handleSignOutClick} *)
| cb_confirmSignOut       (* onConfirm={confirmSignOut} *)
| cb_closeConfirm         (* onClose={() => setShowSignOutConfirm(false)} *)
| cb_pushSignIn.          (* onClick={() => router.push('/sign-in')} *)

(** The two [useState] cells. *)
Record Hooks : Type := mkHooks {
  showSignOutConfirm : bool;
  isSigningOut       : bool
}.

(** [useState(false)], twice. *)
Definition initial : Hooks :=
  {| showSignOutConfirm := false; isSigningOut := false |}.

Section Control.

(** The provider's session record, and the value a rejected promise
    carries. *)
Variable Session : Type.
Variable Err : Type.
Variable cn : list (option string) -> string.

(** [const { data: session, isPending: loading } = authClient.useSession()] *)
Record SessionQuery : Type := mkQuery {
  data      : option Session;
  isPending : bool
}.

(** How the promise of [authClient.signOut()] settles. *)
Inductive Outcome : Type :=
| Resolved
| Rejected (error : Err).

(** Every call a handler makes, state setters included. *)
Inductive Action : Type :=
| SetShowSignOutConfirm (b : bool)
| SetIsSigningOut (b : bool)
| SignOut                                   (* authClient.signOut() *)
| RouterPush (path : string)                (* router.push(path) *)
| ConsoleError (msg : string) (error : Err) (* console.error(msg, error) *).

Definition is_SignOut (a : Action) : bool :=
  match a with SignOut => true | _ => false end.

Definition is_RouterPush (a : Action) : bool :=
  match a with RouterPush _ => true | _ => false end.

(** The calls that leave the component: everything but the state setters. *)
Definition is_side_effect (a : Action) : bool :=
  match a with
  | SetShowSignOutConfirm _ | SetIsSigningOut _ => false
  | _ => true
  end.

(** What a handler acts on: the hook cells and the number of sign-out
    promises not yet settled. *)
Record St : Type := mkSt {
  hooks       : Hooks;
  outstanding : nat
}.

(** Handlers: state, exceptions, and the ordered log of calls. *)
Definition M (A : Type) : Type := St -> (Err + A) * St * list Action.

Definition ret {A : Type} (a : A) : M A := fun s => (inr a, s, []).

Definition bind {A B : Type} (m : M A) (k : A -> M B) : M B :=
  fun s =>
    match m s with
    | (inl e, s1, l1) => (inl e, s1, l1)
    | (inr a, s1, l1) =>
        match k a s1 with
        | (r, s2, l2) => (r, s2, l1 ++ l2)
        end
    end.

Definition try_catch_finally (body : M unit) (handler : Err -> M unit)
    (final : M unit) : M unit :=
  fun s =>
    let '(r, s1, l1) :=
      match body s with
      | (inr a, s1, l1) => (inr a, s1, l1)
      | (inl e, s1, l1) =>
          match handler e s1 with
          | (r, s2, l2) => (r, s2, l1 ++ l2)
          end
      end in
    match final s1 with
    | (inr _, s2, l2) => (r, s2, l1 ++ l2)
    | (inl e, s2, l2) => (inl e, s2, l1 ++ l2)
    end.

(** The three components of a handler run. *)
Definition result_of {A : Type} (m : M A) (s : St) : Err + A := fst (fst (m s)).
Definition state_after {A : Type} (m : M A) (s : St) : St := snd (fst (m s)).
Definition calls_of {A : Type} (m : M A) (s : St) : list Action := snd (m s).

Notation "m ;; k" := (bind m (fun _ => k))
  (at level 61, right associativity).

(** One logged call, with its effect on the state. *)
Definition call (a : Action) (f : St -> St) : M unit :=
  fun s => (inr tt, f s, [a]).

Definition setShowSignOutConfirm (b : bool) : M unit :=
  call (SetShowSignOutConfirm b)
    (fun s => {| hooks := {| showSignOutConfirm := b;
                             isSigningOut := isSigningOut (hooks s) |};
                 outstanding := outstanding s |}).

Definition setIsSigningOut (b : bool) : M unit :=
  call (SetIsSigningOut b)
    (fun s => {| hooks := {| showSignOutConfirm := showSignOutConfirm (hooks s);
                             isSigningOut := b |};
                 outstanding := outstanding s |}).

(** [authClient.signOut()]: the call returns a promise, now outstanding. *)
Definition authClient_signOut : M unit :=
  call SignOut
    (fun s => {| hooks := hooks s; outstanding := S (outstanding s) |}).

(** [await] of that promise: resumes normally when it resolved, throws the
    error when it rejected; either way it is no longer outstanding. *)
Definition await (o : Outcome) : M unit :=
  fun s =>
    let s' := {| hooks := hooks s; outstanding := pred (outstanding s) |} in
    match o with
    | Resolved => (inr tt, s', [])
    | Rejected error => (inl error, s', [])
    end.

Definition router_push (path : string) : M unit :=
  call (RouterPush path) (fun s => s).

Definition console_error (msg : string) (error : Err) : M unit :=
  call (ConsoleError msg error) (fun s => s).

(** [const handleSignOutClick = () => { setShowSignOutConfirm(true); }] *)
Definition handleSignOutClick : M unit :=
  setShowSignOutConfirm true.

(** [const confirmSignOut = async () => { ... }], run to completion with
    the promise settling as [o]. *)
Definition confirmSignOut (o : Outcome) : M unit :=
  setIsSigningOut true ;;
  try_catch_finally
    (authClient_signOut ;; await o ;;
     setShowSignOutConfirm false ;;
     router_push "/")
    (fun error => console_error "Error signing out:" error)
    (setIsSigningOut false).

(** The same function cut at its only suspension point: what runs
    synchronously inside the click, up to the [await] ... *)
Definition confirmSignOut_until_await : M unit :=
  setIsSigningOut true ;;
  authClient_signOut.

(** ... and what runs when the promise settles. *)
Definition confirmSignOut_after_await (o : Outcome) : M unit :=
  try_catch_finally
    (await o ;;
     setShowSignOutConfirm false ;;
     router_push "/")
    (fun error => console_error "Error signing out:" error)
    (setIsSigningOut false).

(** [onClose={() => setShowSignOutConfirm(false)}] *)
Definition closeConfirm : M unit :=
  setShowSignOutConfirm false.

(** [onClick={() => router.push('/sign-in')}] *)
Definition pushSignIn : M unit :=
  router_push "/sign-in".

(** What a click runs for each callback (for [confirmSignOut], the part
    before the suspension). *)
Definition handler (c : Callback) : M unit :=
  match c with
  | cb_handleSignOutClick => handleSignOutClick
  | cb_confirmSignOut => confirmSignOut_until_await
  | cb_closeConfirm => closeConfirm
  | cb_pushSignIn => pushSignIn
  end.

(** The three trees the component can return. *)
Inductive View : Type :=
| Placeholder (button : Element Callback)
| SignedIn (modal : option (Dialog Callback)) (button : Element Callback)
| SignedOut (button : Element Callback).

(** The component's return value for a session query and hook values. *)
Definition AuthButton (q : SessionQuery) (h : Hooks) : View :=
  if isPending q then
    Placeholder
      {| onClick := None; disabled := true; className := ""; text := "" |}
  else
    match data q with
    | Some _ =>
        SignedIn
          (ConfirmationModal cn
             {| isOpen := showSignOutConfirm h;
                onClose := cb_closeConfirm;
                onConfirm := cb_confirmSignOut;
                title := Some "Sign Out";
                description := Some "Are you sure you want to sign out?";
                confirmLabel := Some "Sign Out";
                cancelLabel := None;
                variant := None;
                isLoading := Some (isSigningOut h) |})
          {| onClick := Some cb_handleSignOutClick;
             disabled := false;
             className := "gap-2 text-muted-foreground hover:text-destructive";
             text := "Sign Out" |}
    | None =>
        SignedOut
          {| onClick := Some cb_pushSignIn;
             disabled := false;
             className := "gap-2";
             text := "Sign In" |}
    end.

(** Where a click can land: on the component's own button (whichever of the
    three is on screen) or on a control of the dialog. *)
Inductive Target : Type :=
| OwnButton
| InDialog (c : Control).

Definition view_click (v : View) (t : Target) : list Callback :=
  match t, v with
  | OwnButton, Placeholder b => activate b
  | OwnButton, SignedIn _ b => activate b
  | OwnButton, SignedOut b => activate b
  | InDialog c, SignedIn modal _ => click modal c
  | InDialog _, _ => []
  end.

(** Is the sign-in affordance on screen? *)
Definition shows_sign_in (v : View) : bool :=
  match v with
  | SignedOut _ => true
  | _ => false
  end.

(** *** The mounted component as a machine *)

(** The dialog a tree shows, if it shows one. *)
Definition rendered_dialog (v : View) : option (Dialog Callback) :=
  match v with
  | SignedIn modal _ => modal
  | Placeholder _ | SignedOut _ => None
  end.

(** [exiting]: the gate wraps its dialog in [AnimatePresence] and gives it
    [exit="closed"] variants.  A dialog that a re-render with [isOpen] false
    takes out of the tree therefore stays on screen, as the render that
    produced it left it (handlers, disabled flags, texts), until its exit
    animation completes. *)
Record Machine : Type := mkMachine {
  st      : St;
  query   : SessionQuery;
  log     : list Action;
  exiting : option (Dialog Callback)
}.

(** The dialog the user can click: the one of the current render, or,
    when the mounted gate renders none, the one still animating out. *)
Definition on_screen (x : Machine) : option (Dialog Callback) :=
  match AuthButton (query x) (hooks (st x)) with
  | SignedIn (Some d) _ => Some d
  | SignedIn None _ => exiting x
  | Placeholder _ | SignedOut _ => None
  end.

(** What a click on target [t] invokes. *)
Definition screen_click (x : Machine) (t : Target) : list Callback :=
  match t with
  | OwnButton => view_click (AuthButton (query x) (hooks (st x))) OwnButton
  | InDialog c => click (on_screen x) c
  end.

(** What animates out once tree [v] is committed, [before] being the
    dialog that was on screen: a mounted gate that renders no dialog keeps
    it; a gate that renders a dialog shows that one; and when the gate
    itself is not in the tree, [AnimatePresence] is gone with it. *)
Definition leftover (before : option (Dialog Callback)) (v : View)
  : option (Dialog Callback) :=
  match v with
  | SignedIn None _ => before
  | SignedIn (Some _) _ | Placeholder _ | SignedOut _ => None
  end.

Definition run (m : M unit) (x : Machine) : Machine :=
  let '(_, s, l) := m (st x) in
  {| st := s; query := query x; log := log x ++ l; exiting := exiting x |}.

Definition run_callbacks (cs : list Callback) (x : Machine) : Machine :=
  fold_left (fun y c => run (handler c) y) cs x.

(** The re-render after an event. *)
Definition rerender (before : option (Dialog Callback)) (x : Machine)
  : Machine :=
  {| st := st x; query := query x; log := log x;
     exiting := leftover before (AuthButton (query x) (hooks (st x))) |}.

Inductive Event : Type :=
| UserClick (t : Target)            (* the user clicks what is on screen *)
| SignOutSettled (o : Outcome)      (* an outstanding promise settles *)
| SessionChanged (q : SessionQuery) (* useSession re-renders with [q] *)
| ExitComplete                      (* the exit animation has finished *).

Definition step (x : Machine) (ev : Event) : Machine :=
  match ev with
  | UserClick t =>
      rerender (on_screen x) (run_callbacks (screen_click x t) x)
  | SignOutSettled o =>
      match outstanding (st x) with
      | O => x
      | S _ => rerender (on_screen x) (run (confirmSignOut_after_await o) x)
      end
  | SessionChanged q =>
      rerender (on_screen x)
        {| st := st x; query := q; log := log x; exiting := exiting x |}
  | ExitComplete =>
      {| st := st x; query := query x; log := log x; exiting := None |}
  end.

Definition steps (x : Machine) (evs : list Event) : Machine :=
  fold_left step evs x.

(** The component right after mounting. *)
Definition mounted (q : SessionQuery) : Machine :=
  {| st := {| hooks := initial; outstanding := 0 |};
     query := q;
     log := [];
     exiting := None |}.

Inductive reachable (q0 : SessionQuery) : Machine -> Prop :=
| reach_mounted : reachable q0 (mounted q0)
| reach_step x ev : reachable q0 x -> reachable q0 (step x ev).

End Control.

Arguments mkQuery {Session}.
Arguments data {Session}.
Arguments isPending {Session}.
Arguments Rejected {Err}.
Arguments SetShowSignOutConfirm {Err}.
Arguments SetIsSigningOut {Err}.
Arguments SignOut {Err}.
Arguments RouterPush {Err}.
Arguments ConsoleError {Err}.
Arguments is_SignOut {Err}.
Arguments is_RouterPush {Err}.
Arguments is_side_effect {Err}.
Arguments AuthButton {Session}.
Arguments result_of {Err A}.
Arguments state_after {Err A}.
Arguments calls_of {Err A}.
Arguments mkMachine {Session Err}.
Arguments st {Session Err}.
Arguments query {Session Err}.
Arguments log {Session Err}.
Arguments exiting {Session Err}.
Arguments on_screen {Session Err}.
Arguments screen_click {Session Err}.
Arguments rerender {Session Err}.
Arguments ExitComplete {Session Err}.
Arguments run {Session Err}.
Arguments run_callbacks {Session Err}.
Arguments UserClick {Session Err}.
Arguments SignOutSettled {Session Err}.
Arguments SessionChanged {Session Err}.
Arguments step {Session Err}.
Arguments steps {Session Err}.
Arguments mounted {Session Err}.
Arguments reachable {Session Err}.

(** For concrete runs: a [cn] that joins the class names it keeps, and a
    resolved query whose session is a plain name. *)
Definition join_classes (cs : list (option string)) : string :=
  fold_right (fun c acc => match c with
                           | Some k => k ++ " " ++ acc
                           | None => acc
                           end)%string "" cs.

Definition signed_in : SessionQuery string := mkQuery (Some "alice") false.

End AuthButton.

(* ================================================================== *)
(** ** The gate seen by its consumer *)
(* ================================================================== *)

Module GateUse.

Import ConfirmationModal.

Section Requests.

Variable cb : Type.

(** The same props with another loading flag. *)
Definition with_loading (l : option bool) (p : ConfirmationModalProps cb)
  : ConfirmationModalProps cb :=
  {| isOpen := isOpen p; onClose := onClose p; onConfirm := onConfirm p;
     title := title p; description := description p;
     confirmLabel := confirmLabel p; cancelLabel := cancelLabel p;
     variant := variant p; isLoading := l |}.

(** The same props with every optional one written out: an absent prop is
    replaced by the default of the component's parameter list. *)
Definition fill_defaults (p : ConfirmationModalProps cb)
  : ConfirmationModalProps cb :=
  {| isOpen := isOpen p; onClose := onClose p; onConfirm := onConfirm p;
     title := Some (or_default (title p) "Are you sure?");
     description :=
       Some (or_default (description p)
               "This action make your sessions end, and use a new login token.");
     confirmLabel := Some (or_default (confirmLabel p) "Confirm");
     cancelLabel := Some (or_default (cancelLabel p) "Cancel");
     variant := Some (or_default (variant p) danger);
     isLoading := Some (or_default (isLoading p) false) |}.

(** The controls whose JSX carries [disabled={isLoading}]. *)
Definition guarded (c : Control) : bool :=
  match c with
  | CancelButton | ConfirmButton => true
  | Backdrop | CloseButton => false
  end.

(** The prop a control's [onClick] is bound to. *)
Definition wired (p : ConfirmationModalProps cb) (c : Control) : cb :=
  match c with
  | ConfirmButton => onConfirm p
  | Backdrop | CloseButton | CancelButton => onClose p
  end.

(** A dialog with the marks of the loading flag wiped: the [disabled] flags
    of the two action buttons and the text of the confirm button. *)
Definition without_loading_marks (d : Dialog cb) : Dialog cb :=
  {| backdrop := backdrop d;
     closeButton := closeButton d;
     icon := icon d;
     heading := heading d;
     paragraph := paragraph d;
     cancelButton :=
       {| onClick := onClick (cancelButton d); disabled := false;
          className := className (cancelButton d);
          text := text (cancelButton d) |};
     confirmButton :=
       {| onClick := onClick (confirmButton d); disabled := false;
          className := className (confirmButton d);
          text := "" |} |}.

End Requests.

Arguments with_loading {cb}.
Arguments fill_defaults {cb}.
Arguments wired {cb}.
Arguments without_loading_marks {cb}.

(** Is the gate in the tree? *)
Definition is_mounted (g : Presence) : bool :=
  match g with Some _ => true | None => false end.

(** Was the gate in the tree at some point of the lifecycle? *)
Definition ever_mounted (nexts : list Presence) : bool :=
  existsb is_mounted nexts.

(** *** Several gates on one page

    Every instance of the component runs the same effect on the one
    [document.body]; instances are told apart by a number. *)
Definition Gates : Type := nat -> Presence.

Definition set_gate (i : nat) (next : Presence) (gs : Gates) : Gates :=
  fun j => if Nat.eqb j i then next else gs j.

(** Gate [i] goes to presence [next]; its effect acts on the shared
    document. *)
Definition gate_commit (i : nat) (next : Presence) (page : Gates * Document)
  : Gates * Document :=
  (set_gate i next (fst page), commit (fst page i) next (snd page)).

End GateUse.

(* ================================================================== *)
(** ** The control on its page *)
(* ================================================================== *)

Module Page.

Import ConfirmationModal AuthButton.

(** The presence of the [ConfirmationModal] child in a tree returned by
    [AuthButton]: it is a child of the signed-in tree only, and it renders
    its dialog exactly when its [isOpen] holds. *)
Definition modal_presence (v : View) : Presence :=
  match v with
  | SignedIn (Some _) _ => Some true
  | SignedIn None _ => Some false
  | Placeholder _ | SignedOut _ => None
  end.

(** The four texts of a dialog: heading, paragraph, cancel, confirm. *)
Definition texts (d : Dialog Callback) : string * string * string * string :=
  (heading d, paragraph d, text (cancelButton d), text (confirmButton d)).

(** [if (session)]: is there a session object? *)
Definition has_session {Session : Type} (q : SessionQuery Session) : bool :=
  match data q with
  | Some _ => true
  | None => false
  end.

Section Composition.

Variable Session : Type.
Variable Err : Type.
Variable cn : list (option string) -> string.

(** What the component currently returns. *)
Definition view (x : Machine Session Err) : View :=
  AuthButton cn (query x) (hooks (st x)).

(** The component together with the document its modal's effect acts on. *)
Record PageState : Type := mkPage {
  component : Machine Session Err;
  document  : Document
}.

(** First render and commit. *)
Definition page_mounted (q : SessionQuery Session) (d0 : Document)
  : PageState :=
  {| component := mounted q;
     document := commit None (modal_presence (view (mounted q))) d0 |}.

(** One event: the handlers run, the component re-renders with the state
    updates of the event applied together, and the modal's effect is
    scheduled from the old tree to the new one. *)
Definition page_step (p : PageState) (ev : Event Session Err) : PageState :=
  let x' := step cn (component p) ev in
  {| component := x';
     document := commit (modal_presence (view (component p)))
                   (modal_presence (view x')) (document p) |}.

Definition page_steps (p : PageState) (evs : list (Event Session Err))
  : PageState :=
  fold_left page_step evs p.

(** [router.push('/')] *)
Definition is_home_push (a : Action Err) : bool :=
  match a with
  | RouterPush path => String.eqb path "/"
  | _ => false
  end.

(** [console.error(...)] *)
Definition is_error_log (a : Action Err) : bool :=
  match a with
  | ConsoleError _ _ => true
  | _ => false
  end.

(** The only destinations the component names. *)
Definition known_destination (a : Action Err) : Prop :=
  match a with
  | RouterPush path => path = "/" \/ path = "/sign-in"
  | _ => True
  end.

Definition count (f : Action Err -> bool) (l : list (Action Err)) : nat :=
  length (filter f l).

(** Every sign-out call is a navigation home, a logged error, or still
    outstanding. *)
Definition accounted (x : Machine Session Err) : Prop :=
  count is_SignOut (log x)
  = count is_home_push (log x) + count is_error_log (log x)
    + outstanding (st x).

(** Does event [ev], arriving in state [x], hit a confirm button that is
    on screen - rendered now, or animating out - and not disabled? *)
Definition confirms (x : Machine Session Err) (ev : Event Session Err)
  : bool :=
  match ev with
  | UserClick (InDialog ConfirmButton) =>
      match on_screen cn x with
      | Some d => negb (disabled (confirmButton d))
      | None => false
      end
  | _ => false
  end.

(** The handlers as the component binds them to the controls of its
    dialog. *)
Definition bound (c : Control) : Callback :=
  match c with
  | ConfirmButton => cb_confirmSignOut
  | Backdrop | CloseButton | CancelButton => cb_closeConfirm
  end.

Definition bound_as_rendered (d : Dialog Callback) : Prop :=
  forall c, onClick (control d c) = Some (bound c).

(** The modal's successive presences along a run of events, after each
    event's re-render. *)
Fixpoint run_presences (x : Machine Session Err)
    (evs : list (Event Session Err)) : list Presence :=
  match evs with
  | [] => []
  | ev :: rest =>
      modal_presence (view (step cn x ev)) :: run_presences (step cn x ev) rest
  end.

(** The same from the first render on. *)
Definition page_presences (q : SessionQuery Session)
    (evs : list (Event Session Err)) : list Presence :=
  modal_presence (view (mounted q)) :: run_presences (mounted q) evs.

End Composition.

Arguments view {Session Err}.
Arguments mkPage {Session Err}.
Arguments component {Session Err}.
Arguments document {Session Err}.
Arguments page_mounted {Session Err}.
Arguments page_step {Session Err}.
Arguments page_steps {Session Err}.
Arguments is_home_push {Err}.
Arguments is_error_log {Err}.
Arguments known_destination {Err}.
Arguments count {Err}.
Arguments confirms {Session Err}.
Arguments run_presences {Session Err}.
Arguments page_presences {Session Err}.
Arguments accounted {Session Err}.

End Page.

(* ================================================================== *)
(** ** Properties of the gate *)
(* ================================================================== *)

Module GateFacts.

Import ConfirmationModal.

Section Rendering.

Variable cb : Type.
Variable cn : list (option string) -> string.

Implicit Types (p : ConfirmationModalProps cb) (c : Control).

(** An open gate puts exactly the dialog on screen; a closed one nothing. *)
Lemma closed_renders_nothing p :
  isOpen p = false -> ConfirmationModal cn p = None.
Proof.
  intros Hclosed. unfold ConfirmationModal. now rewrite Hclosed.
Qed.

Lemma open_renders_dialog p :
  isOpen p = true -> exists d, ConfirmationModal cn p = Some d.
Proof.
  intros Hopen. unfold ConfirmationModal. rewrite Hopen. eauto.
Qed.

(** C1, evaluated on the code: with the gate open and [isLoading] true, a
    click on the backdrop and a click on the close button each invoke
    [onClose] - neither element carries the loading guard that the cancel
    button (wired to the same [onClose]) has. *)
Theorem backdrop_and_close_ignore_loading
    (close confirm : cb) (t d cl ca : option string) (v : option Variant) :
  let view :=
    ConfirmationModal cn (mkProps true close confirm t d cl ca v (Some true)) in
  click view Backdrop = [close] /\
  click view CloseButton = [close] /\
  click view CancelButton = [].
Proof.
  cbn. repeat split.
Qed.


(** Without the loading flag both controls are live, so the statement
    above is about the flag and not about the controls being dead. *)
Lemma idle_controls_are_live p :
  isOpen p = true ->
  or_default (isLoading p) false = false ->
  click (ConfirmationModal cn p) CancelButton = [onClose p] /\
  click (ConfirmationModal cn p) ConfirmButton = [onConfirm p].
Proof.
  intros Hopen Hidle. unfold ConfirmationModal.
  rewrite Hopen, Hidle. cbn. auto.
Qed.

(** Every request is itself with its own severity, so any two requests
    that differ only in severity are [with_variant v1 p], [with_variant v2 p]
    for a common [p]. *)
Lemma with_own_variant p : with_variant (variant p) p = p.
Proof.
  now destruct p.
Qed.

(** C8: two requests that differ only in [variant] render dialogs that
    agree on everything but class names - the same handlers on the same
    controls, the same disabled flags, the same texts - and every click
    invokes the same handlers. *)
Theorem variant_is_styling_only p (v1 v2 : option Variant) :
  option_map unstyled (ConfirmationModal cn (with_variant v1 p))
    = option_map unstyled (ConfirmationModal cn (with_variant v2 p)) /\
  (forall c,
      click (ConfirmationModal cn (with_variant v1 p)) c
        = click (ConfirmationModal cn (with_variant v2 p)) c) /\
  (forall c,
      rendered_disabled (ConfirmationModal cn (with_variant v1 p)) c
        = rendered_disabled (ConfirmationModal cn (with_variant v2 p)) c).
Proof.
  unfold ConfirmationModal, with_variant; cbn.
  destruct (isOpen p); cbn.
  - repeat split; intros []; reflexivity.
  - repeat split.
Qed.

End Rendering.


(** *** The scroll lock *)

(** C6 as stated fails: the re-render that closes an open gate performs
    two releases (the clean-up of the previous effect, then the [else]
    branch of the new one), not exactly one. *)
Lemma closing_rerender_releases_twice :
  ~ (forall g next : Presence,
        leaves_open g next = true -> releases (performed g next) = 1).
Proof.
  intros Hone.
  specialize (Hone (Some true) (Some false) eq_refl).
  cbv in Hone. discriminate Hone.
Qed.

Lemma lifecycle_settles nexts :
  forall (g : Presence) d (seen : bool),
    (seen = true ->
     overflow d = if is_open g then "hidden" else "unset") ->
    (GateUse.is_mounted g = true -> seen = true) ->
    seen || GateUse.ever_mounted nexts = true ->
    overflow (snd (lifecycle g d nexts))
    = if is_open (fst (lifecycle g d nexts)) then "hidden" else "unset".
Proof.
  induction nexts as [|next rest IH]; intros g d seen Hseen Hg Hever; cbn.
  - cbn in Hever. rewrite orb_false_r in Hever. auto.
  - apply (IH next _ (seen || GateUse.is_mounted next)).
    + destruct g as [[|]|], next as [[|]|]; cbn in *;
        rewrite ?orb_true_r, ?orb_false_r; intros; auto.
    + destruct next; cbn; [now rewrite orb_true_r | discriminate].
    + cbn in Hever. unfold GateUse.ever_mounted.
      destruct seen, next; cbn in *; auto.
Qed.

(** C6, amended: each transition into the open state performs exactly
    one scroll-suppression activation; each transition out of the open
    state performs one release on teardown while still open and two on a
    re-render to closed (the clean-up of the previous effect, then the
    [else] branch of the new one); so after any lifecycle in which the
    gate was mounted and at whose end it is not open, the body overflow is
    released ("unset"). *)
Theorem scroll_lock_follows_presence :
  (forall g next : Presence,
      enters_open g next = true ->
      activations (performed g next) = 1) /\
  (forall g next : Presence,
      leaves_open g next = true ->
      releases (performed g next)
        = match next with
          | Some _ => 2
          | None => 1
          end) /\
  (forall (d0 : Document) (nexts : list Presence),
      GateUse.ever_mounted nexts = true ->
      is_open (fst (lifecycle None d0 nexts)) = false ->
      overflow (snd (lifecycle None d0 nexts)) = "unset").
Proof.
  split; [|split].
  - intros [[|]|] [[|]|]; cbn; intros H; try discriminate H; reflexivity.
  - intros [[|]|] [[|]|]; cbn; intros H; try discriminate H; reflexivity.
  - intros d0 nexts Hever Hclosed.
    rewrite (lifecycle_settles nexts None d0 false);
      [ now rewrite Hclosed | discriminate | discriminate | exact Hever ].
Qed.

(** A gate mounted closed, opened, closed by a re-render and removed. *)
Lemma scroll_lock_follows_presence_witness :
  activations (performed (Some false) (Some true)) = 1 /\
  releases (performed (Some true) (Some false)) = 2 /\
  overflow (snd (lifecycle None {| overflow := "scroll"; assignments := [] |}
                   [Some false; Some true; Some false; None]))
  = "unset".
Proof.
  destruct scroll_lock_follows_presence as (Hin & Hout & Hend).
  split; [exact (Hin (Some false) (Some true) eq_refl)|].
  split; [exact (Hout (Some true) (Some false) eq_refl)|].
  exact (Hend {| overflow := "scroll"; assignments := [] |}
           [Some false; Some true; Some false; None] eq_refl eq_refl).
Defined.

(** C10: closing the gate and unmounting it assign the literal "unset" to
    the body overflow; a previous value other than "unset" is therefore
    not what the document holds after an open/close or an open/unmount
    cycle. *)
Theorem close_assigns_unset_not_previous (d0 : Document) :
  overflow d0 <> "unset" ->
  let closed := snd (lifecycle None d0 [Some true; Some false]) in
  let removed := snd (lifecycle None d0 [Some true; None]) in
  (forall d, overflow (commit (Some true) (Some false) d) = "unset") /\
  (forall a d, overflow (commit (Some a) None d) = "unset") /\
  overflow closed = "unset" /\ overflow closed <> overflow d0 /\
  overflow removed = "unset" /\ overflow removed <> overflow d0.
Proof.
  intros Hprev closed removed. subst closed removed. cbn.
  repeat split; auto.
Qed.

Lemma close_assigns_unset_not_previous_witness :
  let d0 := {| overflow := "scroll"; assignments := [] |} in
  overflow (snd (lifecycle None d0 [Some true; Some false])) <> "scroll".
Proof.
  intros d0.
  assert (Hprev : overflow d0 <> "unset") by (cbn; discriminate).
  pose proof (close_assigns_unset_not_previous d0 Hprev) as H.
  cbv zeta in H. destruct H as (_ & _ & _ & Hnot & _).
  exact Hnot.
Defined.

End GateFacts.

(* ================================================================== *)
(** ** Properties of the sign-out control *)
(* ================================================================== *)

Module ControlFacts.

Import ConfirmationModal AuthButton.

Section Handlers.

Variable Session : Type.
Variable Err : Type.
Variable cn : list (option string) -> string.

Implicit Types (s : St) (h : Hooks) (q : SessionQuery Session)
  (x : Machine Session Err) (o : Outcome Err).

(** The async function is its synchronous prefix followed by its
    continuation, whatever the outcome. *)
Lemma confirmSignOut_split o s :
  confirmSignOut Err o s
  = bind Err (confirmSignOut_until_await Err)
      (fun _ => confirmSignOut_after_await Err o) s.
Proof.
  destruct o; reflexivity.
Qed.


(** Every run of events from the freshly mounted component ends in a
    reachable state. *)
Lemma steps_reachable q0 (evs : list (Event Session Err)) :
  forall x, reachable cn q0 x -> reachable cn q0 (steps cn x evs).
Proof.
  induction evs as [|ev rest IH]; intros x Hx; cbn.
  - exact Hx.
  - apply IH. now apply reach_step.
Qed.


(** C3: when the sign-out promise rejects, the continuation of
    [confirmSignOut] logs the error with [console.error], clears
    [isSigningOut], leaves [showSignOutConfirm] as it was (so a visible
    gate stays visible), and calls [router.push] not at all; with a
    session present the confirm control of a visible gate is live again
    and wired to [confirmSignOut]. *)
Theorem rejected_sign_out_keeps_gate (error : Err) (session : Session) s :
  let k := confirmSignOut_after_await Err (Rejected error) in
  let whole := confirmSignOut Err (Rejected error) in
  result_of k s = inr tt /\
  isSigningOut (hooks (state_after k s)) = false /\
  showSignOutConfirm (hooks (state_after k s)) = showSignOutConfirm (hooks s) /\
  calls_of k s
    = [ConsoleError "Error signing out:" error; SetIsSigningOut false] /\
  filter is_RouterPush (calls_of k s) = [] /\
  view_click (AuthButton cn (mkQuery (Some session) false)
                (hooks (state_after k s)))
    (InDialog ConfirmButton)
    = (if showSignOutConfirm (hooks s) then [cb_confirmSignOut] else []) /\
  calls_of whole s
    = [SetIsSigningOut true; SignOut;
       ConsoleError "Error signing out:" error; SetIsSigningOut false] /\
  hooks (state_after whole s)
    = {| showSignOutConfirm := showSignOutConfirm (hooks s);
         isSigningOut := false |}.
Proof.
  destruct s as [[sh busy] n]. cbn.
  repeat split. now destruct sh.
Qed.

(** C4: when the sign-out promise resolves, the continuation of
    [confirmSignOut] sets [showSignOutConfirm] to false, calls
    [router.push('/')] and clears [isSigningOut], in this order, and
    logs no error. *)
Theorem resolved_sign_out_closes_and_goes_home s :
  let k := confirmSignOut_after_await Err (Resolved Err) in
  let whole := confirmSignOut Err (Resolved Err) in
  result_of k s = inr tt /\
  hooks (state_after k s)
    = {| showSignOutConfirm := false; isSigningOut := false |} /\
  calls_of k s
    = [SetShowSignOutConfirm false; RouterPush "/"; SetIsSigningOut false] /\
  filter is_side_effect (calls_of k s) = [RouterPush "/"] /\
  calls_of whole s
    = [SetIsSigningOut true; SignOut; SetShowSignOutConfirm false;
       RouterPush "/"; SetIsSigningOut false] /\
  hooks (state_after whole s)
    = {| showSignOutConfirm := false; isSigningOut := false |} /\
  outstanding (state_after whole s) = outstanding s.
Proof.
  destruct s as [[sh busy] n]. cbn. repeat split.
Qed.

(** C7: while the session query is pending the component returns the
    disabled placeholder, whatever the session value and the hook values;
    the sign-in button is not on screen and no click invokes a handler. *)
Theorem pending_query_renders_placeholder (session : option Session) h :
  let v := AuthButton cn (mkQuery session true) h in
  v = Placeholder
        {| onClick := None; disabled := true; className := ""; text := "" |} /\
  shows_sign_in v = false /\
  (forall t, view_click v t = []).
Proof.
  cbn. repeat split. now intros [|c].
Qed.

(** Once the query has resolved, the button on screen is the one for the
    session's presence. *)
Lemma resolved_query_renders_affordance (session : option Session) h :
  view_click (AuthButton cn (mkQuery session false) h) OwnButton
  = match session with
    | Some _ => [cb_handleSignOutClick]
    | None => [cb_pushSignIn]
    end.
Proof.
  now destruct session.
Qed.

(** C9: with the confirmation already visible, [handleSignOutClick]
    leaves the state as it is and makes no call other than the state
    setter; the same holds for the click on the sign-out button of the
    mounted component. *)
Theorem request_while_visible_changes_nothing x (session : Session) :
  showSignOutConfirm (hooks (st x)) = true ->
  query x = mkQuery (Some session) false ->
  result_of (handleSignOutClick Err) (st x) = inr tt /\
  state_after (handleSignOutClick Err) (st x) = st x /\
  filter is_side_effect (calls_of (handleSignOutClick Err) (st x)) = [] /\
  st (step cn x (UserClick OwnButton)) = st x /\
  filter is_side_effect (log (step cn x (UserClick OwnButton)))
    = filter is_side_effect (log x).
Proof.
  destruct x as [[[sh busy] n] q l e]. cbn.
  intros -> ->. cbn. repeat split.
  rewrite filter_app. cbn. apply app_nil_r.
Qed.

(** The escape C1 rules out, on the mounted component: with a sign-out
    outstanding, a backdrop click still closes the gate. *)
Lemma backdrop_closes_gate_in_flight (session : Session) n l e :
  let x := {| st := {| hooks := {| showSignOutConfirm := true;
                                   isSigningOut := true |};
                       outstanding := n |};
              query := mkQuery (Some session) false;
              log := l;
              exiting := e |} in
  hooks (st (step (Err:=Err) cn x (UserClick (InDialog Backdrop))))
  = {| showSignOutConfirm := false; isSigningOut := true |}.
Proof.
  reflexivity.
Qed.

End Handlers.



(** The component with the confirmation visible and nothing in flight. *)
Lemma request_while_visible_changes_nothing_witness :
  let x : Machine string string :=
    step join_classes (mounted signed_in) (UserClick OwnButton) in
  st (step join_classes x (UserClick OwnButton)) = st x.
Proof.
  intros x.
  pose proof (request_while_visible_changes_nothing string string
                join_classes x "alice" eq_refl eq_refl) as H.
  destruct H as (_ & _ & _ & Hsame & _).
  exact Hsame.
Defined.

End ControlFacts.

(* ================================================================== *)
(** ** Further properties of the gate *)
(* ================================================================== *)

Module GateUseFacts.

Import ConfirmationModal GateUse.

Section Clicks.

Variable cb : Type.
Variable cn : list (option string) -> string.

Implicit Types (p : ConfirmationModalProps cb) (c : Control).

(** X1: the click table of a rendered dialog.  In the dialog that a
    render with [isOpen] true returns, a click invokes the one prop its
    control is wired to ([onConfirm] for the confirm button, [onClose] for
    the other three), unless the control is one of the two action buttons
    and that render had [isLoading] true: then it invokes nothing. *)
Theorem click_invokes_wired_prop p c :
  isOpen p = true ->
  click (ConfirmationModal cn p) c
  = if guarded c && or_default (isLoading p) false
    then []
    else [wired p c].
Proof.
  intros Hopen. unfold ConfirmationModal. rewrite Hopen.
  destruct (isLoading p) as [[|]|], c; reflexivity.
Qed.

(** Writing a default out is the same as leaving the prop out. *)
Theorem defaults_written_out p :
  ConfirmationModal cn (fill_defaults p) = ConfirmationModal cn p.
Proof.
  destruct p as [o close confirm t d cl ca v l].
  unfold ConfirmationModal, fill_defaults. cbn.
  destruct o; reflexivity.
Qed.

(** X2: the loading flag marks the dialog in two places only, the
    [disabled] flags of the two action buttons and the text of the confirm
    button, which reads "Processing..." while loading and the confirm
    label otherwise; everything else is rendered alike for any two values
    of the flag. *)
Theorem loading_marks_action_buttons_only p (l1 l2 : option bool) :
  option_map without_loading_marks (ConfirmationModal cn (with_loading l1 p))
    = option_map without_loading_marks
        (ConfirmationModal cn (with_loading l2 p)) /\
  option_map (fun d => text (confirmButton d)) (ConfirmationModal cn p)
    = (if isOpen p
       then Some (if or_default (isLoading p) false
                  then "Processing..."
                  else or_default (confirmLabel p) "Confirm")
       else None).
Proof.
  unfold ConfirmationModal, with_loading. cbn.
  destruct (isOpen p); split; reflexivity.
Qed.

End Clicks.

Lemma click_invokes_wired_prop_witness :
  let cn := fun _ : list (option string) => "" in
  let p := mkProps true 0 1 None None None None None None in
  click (ConfirmationModal cn p) ConfirmButton = [1].
Proof.
  intros cn p.
  exact (click_invokes_wired_prop nat cn p ConfirmButton eq_refl).
Defined.

(** *** More on the scroll lock *)

Lemma commit_same g d : commit g g d = d.
Proof.
  destruct g as [[|]|]; reflexivity.
Qed.

(** X4: re-renders that leave [isOpen] as it was are invisible to the
    document: repeating a presence anywhere in a lifecycle changes neither
    the final overflow nor the history of assignments. *)
Theorem repeated_render_is_silent (pre post : list Presence) (n : Presence) :
  forall g d,
    lifecycle g d (pre ++ n :: n :: post) = lifecycle g d (pre ++ n :: post).
Proof.
  induction pre as [|m pre IH]; intros g d; cbn.
  - now rewrite commit_same.
  - apply IH.
Qed.

(** X3: once the gate has been in the tree, the body overflow is a
    function of its presence alone: "hidden" while it is open, "unset"
    otherwise - also when it was only ever mounted closed.  The value the
    page had before is gone. *)
Theorem overflow_after_mount (d0 : Document) (nexts : list Presence) :
  ever_mounted nexts = true ->
  overflow (snd (lifecycle None d0 nexts))
  = if is_open (fst (lifecycle None d0 nexts)) then "hidden" else "unset".
Proof.
  intros Hever. apply (GateFacts.lifecycle_settles nexts None d0 false).
  - discriminate.
  - discriminate.
  - exact Hever.
Qed.

Lemma overflow_after_mount_witness :
  overflow (snd (lifecycle None {| overflow := "scroll"; assignments := [] |}
                   [Some false; None]))
  = "unset".
Proof.
  exact (overflow_after_mount {| overflow := "scroll"; assignments := [] |}
           [Some false; None] eq_refl).
Defined.

(** X5: the lock does not count its holders.  With two gates open on one
    page, closing or removing one of them assigns "unset" although the
    other is still open. *)
Theorem closing_one_gate_unlocks_page (gs : Gates) (d : Document)
    (i j : nat) (next : Presence) :
  i <> j ->
  is_open (gs i) = true ->
  is_open (gs j) = true ->
  is_open next = false ->
  let page := gate_commit i next (gs, d) in
  is_open (fst page j) = true /\ overflow (snd page) = "unset".
Proof.
  intros Hij Hi Hj Hnext. cbn. unfold set_gate.
  apply Nat.eqb_neq in Hij. rewrite Nat.eqb_sym in Hij. rewrite Hij.
  split; [exact Hj|].
  destruct (gs i) as [[|]|]; try discriminate Hi.
  destruct next as [[|]|]; [discriminate Hnext | reflexivity | reflexivity].
Qed.

Lemma closing_one_gate_unlocks_page_witness :
  let gs : Gates := fun _ => Some true in
  let d := {| overflow := "hidden"; assignments := ["hidden"; "hidden"] |} in
  overflow (snd (gate_commit 0 None (gs, d))) = "unset".
Proof.
  intros gs d.
  assert (Hij : 0 <> 1) by discriminate.
  exact (proj2 (closing_one_gate_unlocks_page gs d 0 1 None
                  Hij eq_refl eq_refl eq_refl)).
Defined.

End GateUseFacts.

(* ================================================================== *)
(** ** Further properties of the sign-out control *)
(* ================================================================== *)

Module PageFacts.

Import ConfirmationModal AuthButton Page.

Section Runs.

Variable Session : Type.
Variable Err : Type.
Variable cn : list (option string) -> string.

Implicit Types (h : Hooks) (q : SessionQuery Session)
  (x : Machine Session Err) (ev : Event Session Err).

(** X6: without the modal in the tree - the session query pending, or no
    session - no click changes the hook cells or the number of outstanding
    calls, and the only call a click can make is [router.push('/sign-in')],
    from the sign-in button. *)
Theorem no_session_no_confirmation x (t : Target) :
  modal_presence (view cn x) = None ->
  st (step cn x (UserClick t)) = st x /\
  log (step cn x (UserClick t))
  = log x ++ match t with
             | OwnButton =>
                 if shows_sign_in (view cn x)
                 then [RouterPush "/sign-in"]
                 else []
             | InDialog _ => []
             end.
Proof.
  destruct x as [[[sh busy] n] [session pending] l e].
  unfold view, AuthButton, ConfirmationModal. cbn.
  destruct pending.
  - intros _. destruct t; cbn; split; rewrite ?app_nil_r; reflexivity.
  - destruct session as [session|].
    + destruct sh; discriminate.
    + intros _. destruct t; cbn; split; rewrite ?app_nil_r; reflexivity.
Qed.

(** X7: a click on the backdrop, the close button or (while nothing is in
    flight) the cancel button of the rendered dialog only sets
    [showSignOutConfirm] to false: the loading flag and the outstanding
    calls stay, no other call is made, and the next render returns no
    dialog - but the dismissed dialog is still on screen, as it was
    rendered, until its exit animation completes. *)
Theorem dismissing_only_hides_dialog x (c : Control) (d : Dialog Callback) :
  rendered_dialog (view cn x) = Some d ->
  c <> ConfirmButton ->
  GateUse.guarded c && isSigningOut (hooks (st x)) = false ->
  let x' := step cn x (UserClick (InDialog c)) in
  st x' = {| hooks := {| showSignOutConfirm := false;
                         isSigningOut := isSigningOut (hooks (st x)) |};
             outstanding := outstanding (st x) |} /\
  log x' = log x ++ [SetShowSignOutConfirm false] /\
  rendered_dialog (view cn x') = None /\
  on_screen cn x' = Some d /\
  on_screen cn (step cn x' ExitComplete) = None.
Proof.
  destruct x as [[[sh busy] n] [session pending] l e].
  unfold view, on_screen, AuthButton, ConfirmationModal. cbn.
  destruct pending; [discriminate|].
  destruct session as [session|]; [|discriminate].
  destruct sh; [|discriminate]. cbn. intros Hd Hc Hguard.
  injection Hd as <-.
  destruct c; cbn in Hguard; try congruence; try subst busy;
    cbn; repeat split.
Qed.

(** X10: what the user is asked.  The tree the component returns contains
    the dialog exactly when the session query has resolved to a session
    and [showSignOutConfirm] holds; that dialog reads "Sign Out" / "Are you
    sure you want to sign out?", offers "Cancel" (the gate's default) and
    "Sign Out", the latter replaced by "Processing..." while signing out. *)
Theorem sign_out_dialog_texts q h :
  option_map texts (rendered_dialog (AuthButton cn q h))
  = if negb (isPending q) && has_session q && showSignOutConfirm h
    then Some ("Sign Out", "Are you sure you want to sign out?", "Cancel",
               if isSigningOut h then "Processing..." else "Sign Out")
    else None.
Proof.
  destruct q as [session pending], h as [sh busy].
  unfold AuthButton, ConfirmationModal, has_session. cbn.
  destruct pending; [reflexivity|].
  destruct session; [|reflexivity].
  destruct sh; reflexivity.
Qed.

(** *** Accounting for the sign-out calls *)

Lemma run_handler_accounted (c : Callback) x :
  accounted x -> accounted (run (handler Err c) x).
Proof.
  destruct x as [[hk n] q l e]. unfold accounted, count. cbn.
  intros Hacc.
  destruct c; cbn; rewrite ?filter_app, ?length_app; cbn; lia.
Qed.

Lemma run_handler_destinations (c : Callback) x :
  Forall known_destination (log x) ->
  Forall known_destination (log (run (handler Err c) x)).
Proof.
  destruct x as [[hk n] q l e]. cbn. intros Hl.
  destruct c; cbn; apply Forall_app; split; try exact Hl;
    repeat (apply Forall_cons; [cbn; auto|]); apply Forall_nil.
Qed.

Lemma run_callbacks_accounted (cs : list Callback) :
  forall x,
    accounted x /\ Forall known_destination (log x) ->
    accounted (run_callbacks cs x) /\
    Forall known_destination (log (run_callbacks cs x)).
Proof.
  induction cs as [|c cs IH]; intros x [Hacc Hl]; cbn.
  - now split.
  - apply IH. split.
    + now apply run_handler_accounted.
    + now apply run_handler_destinations.
Qed.

Lemma settle_accounted (o : Outcome Err) x n :
  outstanding (st x) = S n ->
  accounted x /\ Forall known_destination (log x) ->
  accounted (run (confirmSignOut_after_await Err o) x) /\
  Forall known_destination (log (run (confirmSignOut_after_await Err o) x)).
Proof.
  destruct x as [[hk m] q l e]. unfold accounted, count. cbn.
  intros -> [Hacc Hl].
  destruct o; cbn; rewrite ?filter_app, ?length_app; cbn;
    (split; [lia|]); apply Forall_app; split; try exact Hl;
    repeat (apply Forall_cons; [cbn; auto|]); apply Forall_nil.
Qed.

Lemma step_keeps_accounted x ev :
  accounted x /\ Forall known_destination (log x) ->
  accounted (step cn x ev) /\ Forall known_destination (log (step cn x ev)).
Proof.
  intros Hx. destruct ev as [t | o | q' | ]; cbn.
  - exact (run_callbacks_accounted (screen_click cn x t) x Hx).
  - destruct (outstanding (st x)) as [|n] eqn:Hn; [exact Hx|].
    exact (settle_accounted o x n Hn Hx).
  - exact Hx.
  - exact Hx.
Qed.

(** X8: every call of [authClient.signOut()] is accounted for.  In every
    state the mounted component can reach - clicks on a dialog that is
    animating out included - the number of sign-out calls equals the
    navigations home plus the errors logged plus the calls still
    outstanding; and the router is only ever sent to "/" or "/sign-in". *)
Theorem sign_out_calls_accounted q0 x :
  reachable cn q0 x ->
  count is_SignOut (log x)
  = count is_home_push (log x) + count is_error_log (log x)
    + outstanding (st x) /\
  Forall known_destination (log x).
Proof.
  induction 1 as [|x ev _ IH].
  - split; [reflexivity | constructor].
  - now apply step_keeps_accounted.
Qed.

(** *** When the sign-out call is made *)

Lemma rendered_dialog_bound q h (d : Dialog Callback) :
  rendered_dialog (AuthButton cn q h) = Some d -> bound_as_rendered d.
Proof.
  destruct q as [session pending], h as [sh busy].
  unfold AuthButton, ConfirmationModal. cbn.
  destruct pending; [discriminate|].
  destruct session; [|discriminate].
  destruct sh; [|discriminate]. cbn.
  intros Hd. injection Hd as <-. intros []; reflexivity.
Qed.

Lemma on_screen_bound x :
  (forall d, exiting x = Some d -> bound_as_rendered d) ->
  forall d, on_screen cn x = Some d -> bound_as_rendered d.
Proof.
  intros Hex d. unfold on_screen.
  destruct (AuthButton cn (query x) (hooks (st x))) as [b|[d'|] b|b] eqn:Hv;
    try discriminate.
  - intros Hd. injection Hd as <-.
    apply (rendered_dialog_bound (query x) (hooks (st x))).
    now rewrite Hv.
  - apply Hex.
Qed.

Lemma leftover_bound (before : option (Dialog Callback)) (v : View) :
  (forall d, before = Some d -> bound_as_rendered d) ->
  forall d, leftover before v = Some d -> bound_as_rendered d.
Proof.
  intros Hb d. destruct v as [b|[d'|] b|b]; cbn; try discriminate.
  apply Hb.
Qed.

Lemma step_keeps_bound x ev :
  (forall d, exiting x = Some d -> bound_as_rendered d) ->
  forall d, exiting (step cn x ev) = Some d -> bound_as_rendered d.
Proof.
  intros Hex. pose proof (on_screen_bound x Hex) as Hscreen.
  destruct ev as [t | o | q' | ]; cbn.
  - now apply leftover_bound.
  - destruct (outstanding (st x)); [exact Hex|].
    cbn. now apply leftover_bound.
  - now apply leftover_bound.
  - discriminate.
Qed.

Lemma reachable_bound q0 x :
  reachable cn q0 x ->
  forall d, on_screen cn x = Some d -> bound_as_rendered d.
Proof.
  intros Hreach. apply on_screen_bound.
  induction Hreach as [|x ev _ IH].
  - discriminate.
  - now apply step_keeps_bound.
Qed.

(** X9: in every state the mounted component can reach,
    [authClient.signOut()] is called by one kind of event only: a click on
    a confirm button that is on screen - in the rendered dialog or in one
    animating out - and was not rendered disabled.  That event calls it
    once; every other click, every settlement, every session change and
    the end of the exit animation call it not at all. *)
Theorem sign_out_needs_live_confirm q0 x ev :
  reachable cn q0 x ->
  filter is_SignOut (log (step cn x ev))
  = filter is_SignOut (log x) ++ (if confirms cn x ev then [SignOut] else []).
Proof.
  intros Hreach. pose proof (reachable_bound q0 x Hreach) as Hbound.
  destruct ev as [t | o | q' | ].
  - change (log (step cn x (UserClick t)))
      with (log (run_callbacks (screen_click cn x t) x)).
    destruct t as [|c].
    + unfold screen_click, confirms.
      destruct x as [[[sh busy] n] [session pending] l e].
      unfold AuthButton. cbn.
      destruct pending; [now rewrite app_nil_r|].
      destruct session; cbn; rewrite filter_app; reflexivity.
    + unfold screen_click, confirms, click.
      destruct (on_screen cn x) as [d|] eqn:Hd;
        [|destruct c; cbn; now rewrite app_nil_r].
      specialize (Hbound d eq_refl c). unfold activate. rewrite Hbound.
      destruct c; cbn in *;
        match goal with
        | |- context [disabled ?b] => destruct (disabled b)
        end; cbn; rewrite ?filter_app; cbn;
        rewrite ?app_nil_r; reflexivity.
  - cbn. destruct x as [[hk n] q l e]. cbn.
    destruct n; cbn; [now rewrite app_nil_r|].
    destruct o; cbn; now rewrite filter_app.
  - cbn. now rewrite app_nil_r.
  - cbn. now rewrite app_nil_r.
Qed.

(** *** The page's scroll lock *)

Lemma page_steps_lifecycle (evs : list (Event Session Err)) :
  forall p : PageState Session Err,
    (modal_presence (view cn (component (page_steps cn p evs))),
     document (page_steps cn p evs))
    = lifecycle (modal_presence (view cn (component p))) (document p)
        (run_presences cn (component p) evs).
Proof.
  unfold page_steps.
  induction evs as [|ev rest IH]; intros p.
  - reflexivity.
  - cbn [fold_left run_presences lifecycle]. rewrite IH. reflexivity.
Qed.

Lemma never_mounted_untouched (nexts : list Presence) (d : Document) :
  GateUse.ever_mounted nexts = false -> lifecycle None d nexts = (None, d).
Proof.
  induction nexts as [|[b|] rest IH]; cbn; intros H.
  - reflexivity.
  - discriminate H.
  - now apply IH.
Qed.

(** X11: the component with its modal's scroll effect.  After any run of
    clicks, settlements, session changes and finished exit animations: if
    the modal was in the tree at some point, the body overflow is "hidden"
    when the current render shows the dialog and "unset" when it does not
    (after a cancel, after a sign-out, or because the session went away
    under an open dialog) - also while the dismissed dialog is still
    animating out; if the modal was never in the tree, the document is as
    it was. *)
Theorem page_locked_while_dialog_rendered q0 (d0 : Document)
    (evs : list (Event Session Err)) :
  let p := page_steps cn (page_mounted cn q0 d0) evs in
  if GateUse.ever_mounted (page_presences cn q0 evs)
  then overflow (document p)
       = if is_open (modal_presence (view cn (component p)))
         then "hidden" else "unset"
  else document p = d0.
Proof.
  intros p.
  assert (Hrun : (modal_presence (view cn (component p)), document p)
                 = lifecycle None d0 (page_presences cn q0 evs)).
  { unfold p. rewrite page_steps_lifecycle. reflexivity. }
  destruct (GateUse.ever_mounted (page_presences cn q0 evs)) eqn:Hever.
  - pose proof (GateFacts.lifecycle_settles (page_presences cn q0 evs)
                  None d0 false) as H.
    rewrite <- Hrun in H.
    apply H; [discriminate | discriminate | exact Hever].
  - rewrite (never_mounted_untouched _ d0 Hever) in Hrun.
    now injection Hrun.
Qed.

End Runs.

(** The signed-out component: a click on its button goes to the sign-in
    page and leaves the state alone. *)
Lemma no_session_no_confirmation_witness :
  let x : Machine string string := mounted (mkQuery None false) in
  log (step join_classes x (UserClick OwnButton)) = [RouterPush "/sign-in"].
Proof.
  intros x.
  exact (proj2 (no_session_no_confirmation string string join_classes
                  x OwnButton eq_refl)).
Defined.

(** The cancel path: sign-out requested, then cancelled. *)
Lemma dismissing_only_hides_dialog_witness :
  let x : Machine string string :=
    step join_classes (mounted signed_in) (UserClick OwnButton) in
  log (step join_classes x (UserClick (InDialog CancelButton)))
  = [SetShowSignOutConfirm true; SetShowSignOutConfirm false].
Proof.
  intros x.
  assert (Hc : CancelButton <> ConfirmButton) by discriminate.
  pose proof (dismissing_only_hides_dialog string string join_classes
                x CancelButton _ eq_refl Hc eq_refl) as H.
  cbv zeta in H. destruct H as (_ & Hlog & _).
  exact Hlog.
Defined.

(** Cancel, then two confirms on the dialog that is animating out, then
    one rejection: two calls, one error, one outstanding. *)
Lemma sign_out_calls_accounted_witness :
  let x : Machine string string :=
    steps join_classes (mounted signed_in)
      [UserClick OwnButton;
       UserClick (InDialog CancelButton);
       UserClick (InDialog ConfirmButton);
       UserClick (InDialog ConfirmButton);
       SignOutSettled (Rejected "offline")] in
  count is_SignOut (log x) = 2 /\ outstanding (st x) = 1.
Proof.
  intros x.
  assert (Hreach : reachable join_classes signed_in x).
  { apply ControlFacts.steps_reachable. apply reach_mounted. }
  pose proof (sign_out_calls_accounted string string join_classes
                signed_in x Hreach) as [Hacc _].
  split; [exact Hacc | reflexivity].
Defined.

(** A confirm click on the dialog that a cancel has just dismissed. *)
Lemma sign_out_needs_live_confirm_witness :
  let x : Machine string string :=
    steps join_classes (mounted signed_in)
      [UserClick OwnButton; UserClick (InDialog CancelButton)] in
  filter is_SignOut
    (log (step join_classes x (UserClick (InDialog ConfirmButton))))
  = [SignOut].
Proof.
  intros x.
  assert (Hreach : reachable join_classes signed_in x).
  { apply ControlFacts.steps_reachable. apply reach_mounted. }
  exact (sign_out_needs_live_confirm string string join_classes signed_in
           x (UserClick (InDialog ConfirmButton)) Hreach).
Defined.

End PageFacts.
